(** * Chemical weathering feedback box model (main.py)

    A shallow embedding of the integrator of [main.py]: the three numpy
    arrays [rock], [atmo] and [T], their allocation with [np.zeros], the
    initial-state stores and the [for i in range(1, time_steps)] loop.

    The header text of the script (lines 1-8) and the plotting calls
    (lines 42-56) carry no computation on the trajectory and are not
    embedded.

    Python raises on a bad allocation or a bad index, so every operation
    lives in a small error monad.  The script is written once, over an
    abstract scalar arithmetic, and run at two instances: the rationals
    [Q] (exact arithmetic) and IEEE binary64 (what numpy computes). *)

From Stdlib Require Import ZArith QArith Qpower Lia Lqa Floats.
From stdpp Require Import base list.

Set Default Proof Using "Type".
Set Warnings "-inexact-float".
Local Open Scope Z_scope.

(** ** Python errors *)

Inductive PyError : Set :=
  | ValueError   (* np.zeros: negative dimensions are not allowed *)
  | IndexError.  (* index out of bounds for axis 0 *)

Inductive result (A : Type) : Type :=
  | Ok (a : A)
  | Raise (e : PyError).

Arguments Ok {A} a.
Arguments Raise {A} e.

(** Sequencing: the first error raised ends the run.  With these two
    instances [x ← c; k] is stdpp's notation for it. *)
#[export] Instance result_ret : MRet result := fun A a => Ok a.

#[export] Instance result_bind : MBind result := fun A B k c =>
  match c with
  | Ok a => k a
  | Raise e => Raise e
  end.

(** ** Scalars

    The arithmetic the script uses on array elements: [+], [-], [*] and
    the zero [np.zeros] fills with. *)

Class Scalar (F : Type) : Type := {
  f_zero : F;
  f_add : F -> F -> F;
  f_sub : F -> F -> F;
  f_mul : F -> F -> F
}.

Declare Scope scalar_scope.
Delimit Scope scalar_scope with F.
Infix "+" := f_add : scalar_scope.
Infix "-" := f_sub : scalar_scope.
Infix "*" := f_mul : scalar_scope.

(** Exact rational arithmetic. *)
#[export] Instance Q_scalar : Scalar Q :=
  {| f_zero := 0%Q; f_add := Qplus; f_sub := Qminus; f_mul := Qmult |}.

(** IEEE 754 binary64, the element type of [np.zeros(n)]. *)
#[export] Instance binary64_scalar : Scalar float :=
  {| f_zero := PrimFloat.zero; f_add := PrimFloat.add;
     f_sub := PrimFloat.sub; f_mul := PrimFloat.mul |}.

(** ** One-dimensional numpy arrays *)

Section Numpy.
Context {F : Type} `{Scalar F}.

(** [np.zeros(n)]: an array of [n] zeros; a negative [n] raises
    [ValueError]. *)
Definition np_zeros (n : Z) : result (list F) :=
  if n <? 0 then Raise ValueError
  else Ok (replicate (Z.to_nat n) f_zero).

(** [np.arange(n)]: the integers [0 .. n-1]; empty when [n <= 0]. *)
Definition np_arange (n : Z) : list Z := seqZ 0 n.

(** Index resolution on an axis of size [len]: a negative index counts
    from the end, and an index outside [-len .. len-1] raises
    [IndexError]. *)
Definition np_index (len : nat) (i : Z) : result nat :=
  let n := Z.of_nat len in
  if (i <? - n) || (n <=? i) then Raise IndexError
  else Ok (Z.to_nat (if i <? 0 then i + n else i)).

(** [a[i]] *)
Definition getitem (a : list F) (i : Z) : result F :=
  k ← np_index (length a) i;
  match a !! k with
  | Some x => Ok x
  | None => Raise IndexError
  end.

(** [a[i] = v] *)
Definition setitem (a : list F) (i : Z) (v : F) : result (list F) :=
  k ← np_index (length a) i;
  Ok (<[k := v]> a).
End Numpy.

(** [range(lo, hi)] *)
Definition py_range (lo hi : Z) : list Z := seqZ lo (hi - lo).

(** [for i in idx: body], over a state on which the body may raise. *)
Fixpoint for_each {S : Type} (idx : list Z) (body : Z -> S -> result S)
    (st : S) : result S :=
  match idx with
  | [] => Ok st
  | i :: idx' => st' ← body i st; for_each idx' body st'
  end.

(** ** The script *)

(** The module-level constants of lines 13-23.  [rock_0], [atmo_0] and
    [T_0] are Python ints in the script; they are only ever stored into a
    float64 array or combined with a float64, so they are scalars here. *)
Record Config (F : Type) : Type := {
  c1 : F;           (* rate of carbon release from rock to atmosphere *)
  c2 : F;           (* rate of carbon burial from atmosphere to rock *)
  c3 : F;           (* temperature sensitivity to atmospheric carbon *)
  rock_0 : F;
  atmo_0 : F;
  T_0 : F;
  time_steps : Z
}.

Arguments c1 {F} _.
Arguments c2 {F} _.
Arguments c3 {F} _.
Arguments rock_0 {F} _.
Arguments atmo_0 {F} _.
Arguments T_0 {F} _.
Arguments time_steps {F} _.

(** The arrays of lines 24-29. *)
Record State (F : Type) : Type := {
  time : list Z;
  rock : list F;
  atmo : list F;
  T : list F
}.

Arguments time {F} _.
Arguments rock {F} _.
Arguments atmo {F} _.
Arguments T {F} _.

Section Script.
Context {F : Type} `{Scalar F}.
Variable cfg : Config F.

(** Lines 24-29. *)
Definition allocate : result (State F) :=
  let time := np_arange (time_steps cfg) in
  rock ← np_zeros (time_steps cfg);
  atmo ← np_zeros (time_steps cfg);
  T ← np_zeros (time_steps cfg);
  Ok {| time := time; rock := rock; atmo := atmo; T := T |}.

(** Lines 32-34. *)
Definition set_initial_state (st : State F) : result (State F) :=
  rock' ← setitem (rock st) 0 (rock_0 cfg);
  atmo' ← setitem (atmo st) 0 (atmo_0 cfg);
  T' ← setitem (T st) 0 (T_0 cfg);
  Ok {| time := time st; rock := rock'; atmo := atmo'; T := T' |}.

(** Lines 38-40, one pass of the loop body at index [i].  Each
    subscript is read from the array as it is at that point: line 39
    reads [rock[i-1]] after line 38 has stored [rock[i]]. *)
Definition loop_body (i : Z) (st : State F) : result (State F) :=
  (* rock[i] = rock[i-1] - c1 * rock[i-1] + c2 * atmo[i-1] *)
  r ← getitem (rock st) (i - 1);
  r' ← getitem (rock st) (i - 1);
  a ← getitem (atmo st) (i - 1);
  rock' ← setitem (rock st) i (r - c1 cfg * r' + c2 cfg * a)%F;
  (* atmo[i] = atmo[i-1] + c1 * rock[i-1] - c2 * atmo[i-1] *)
  a ← getitem (atmo st) (i - 1);
  r ← getitem rock' (i - 1);
  a' ← getitem (atmo st) (i - 1);
  atmo' ← setitem (atmo st) i (a + c1 cfg * r - c2 cfg * a')%F;
  (* T[i] = T_0 + c3 * (atmo[i] - atmo_0) *)
  a ← getitem atmo' i;
  T' ← setitem (T st) i (T_0 cfg + c3 cfg * (a - atmo_0 cfg))%F;
  Ok {| time := time st; rock := rock'; atmo := atmo'; T := T' |}.

(** Lines 37-40. *)
Definition main_loop (st : State F) : result (State F) :=
  for_each (py_range 1 (time_steps cfg)) loop_body st.

(** Lines 24-40. *)
Definition run : result (State F) :=
  st ← allocate;
  st ← set_initial_state st;
  main_loop st.
End Script.

(** The constants as the script sets them. *)
Definition default_config : Config Q :=
  {| c1 := 0.01%Q; c2 := 0.005%Q; c3 := 0.02%Q;
     rock_0 := 1000%Q; atmo_0 := 300%Q; T_0 := 15%Q;
     time_steps := 1000 |}.

Definition default_config_binary64 : Config float :=
  {| c1 := 0.01%float; c2 := 0.005%float; c3 := 0.02%float;
     rock_0 := 1000%float; atmo_0 := 300%float; T_0 := 15%float;
     time_steps := 1000 |}.

(** The script's constants with both exchange rates set to zero. *)
Definition frozen_config_binary64 : Config float :=
  {| c1 := 0%float; c2 := 0%float; c3 := 0.02%float;
     rock_0 := 1000%float; atmo_0 := 300%float; T_0 := 15%float;
     time_steps := 1000 |}.

(** The script with another step count. *)
Definition with_time_steps {F : Type} (cfg : Config F) (n : Z) : Config F :=
  {| c1 := c1 cfg; c2 := c2 cfg; c3 := c3 cfg;
     rock_0 := rock_0 cfg; atmo_0 := atmo_0 cfg; T_0 := T_0 cfg;
     time_steps := n |}.

(** A small configuration to run by hand: three steps, rates 1/2 and
    1/4, sensitivity 2. *)
Definition small_config : Config Q :=
  {| c1 := (1 # 2)%Q; c2 := (1 # 4)%Q; c3 := 2%Q;
     rock_0 := 8%Q; atmo_0 := 4%Q; T_0 := 1%Q;
     time_steps := 3 |}.

(** A configuration with both exchange rates zero. *)
Definition frozen_config : Config Q :=
  {| c1 := 0%Q; c2 := 0%Q; c3 := 2%Q;
     rock_0 := 8%Q; atmo_0 := 4%Q; T_0 := 1%Q;
     time_steps := 3 |}.

(** A configuration that starts at equilibrium: the release
    [c1*rock_0 = 2] equals the burial [c2*atmo_0 = 2]. *)
Definition balanced_config : Config Q :=
  {| c1 := (1 # 2)%Q; c2 := (1 # 4)%Q; c3 := 2%Q;
     rock_0 := 4%Q; atmo_0 := 8%Q; T_0 := 1%Q;
     time_steps := 3 |}.

(** The script with both initial reservoirs measured in another unit:
    [rock_0] and [atmo_0] multiplied by [k]. *)
Definition scale_carbon (k : Q) (cfg : Config Q) : Config Q :=
  {| c1 := c1 cfg; c2 := c2 cfg; c3 := c3 cfg;
     rock_0 := (k * rock_0 cfg)%Q; atmo_0 := (k * atmo_0 cfg)%Q;
     T_0 := T_0 cfg; time_steps := time_steps cfg |}.

(** The script with another temperature sensitivity and initial
    temperature. *)
Definition with_temperature {F : Type} (cfg : Config F) (c3' T_0' : F)
    : Config F :=
  {| c1 := c1 cfg; c2 := c2 cfg; c3 := c3';
     rock_0 := rock_0 cfg; atmo_0 := atmo_0 cfg; T_0 := T_0';
     time_steps := time_steps cfg |}.

(** ** The loop invariant

    [filled cfg n k st]: the arrays have [n] cells, cell 0 holds the
    initial state, and cells [1 .. k] were written by the loop body from
    the cells before them. *)
Record filled {F : Type} `{Scalar F} (cfg : Config F) (n k : nat)
    (st : State F) : Prop := {
  filled_time : time st = np_arange (time_steps cfg);
  filled_rock_length : length (rock st) = n;
  filled_atmo_length : length (atmo st) = n;
  filled_T_length : length (T st) = n;
  filled_rock_0 : rock st !! 0%nat = Some (rock_0 cfg);
  filled_atmo_0 : atmo st !! 0%nat = Some (atmo_0 cfg);
  filled_T_0 : T st !! 0%nat = Some (T_0 cfg);
  filled_step : forall j : nat, (j < k)%nat ->
    exists r a : F,
      rock st !! j = Some r /\
      atmo st !! j = Some a /\
      rock st !! S j = Some (r - c1 cfg * r + c2 cfg * a)%F /\
      atmo st !! S j = Some (a + c1 cfg * r - c2 cfg * a)%F /\
      T st !! S j =
        Some (T_0 cfg + c3 cfg * ((a + c1 cfg * r - c2 cfg * a) - atmo_0 cfg))%F
}.

(** ** Array accesses in range *)

Section NumpyFacts.
Context {F : Type} `{Scalar F}.

Lemma bind_Ok {A B : Type} (a : A) (k : A -> result B) :
  (Ok a ≫= k) = k a.
Proof. reflexivity. Qed.

Lemma bind_Raise {A B : Type} (e : PyError) (k : A -> result B) :
  (Raise e ≫= k) = Raise e.
Proof. reflexivity. Qed.

Lemma bind_assoc {A B C : Type} (c : result A) (f : A -> result B)
    (g : B -> result C) :
  ((c ≫= f) ≫= g) = (c ≫= fun x => f x ≫= g).
Proof. by destruct c. Qed.

Lemma np_index_nat (len k : nat) :
  (k < len)%nat -> np_index len (Z.of_nat k) = Ok k.
Proof.
  intros Hk. unfold np_index.
  destruct (Z.ltb_spec (Z.of_nat k) (- Z.of_nat len)); [lia|].
  destruct (Z.leb_spec (Z.of_nat len) (Z.of_nat k)); [lia|].
  destruct (Z.ltb_spec (Z.of_nat k) 0); [lia|].
  simpl. by rewrite Nat2Z.id.
Qed.

Lemma np_index_empty (i : Z) : np_index 0 i = Raise IndexError.
Proof.
  unfold np_index. change (- Z.of_nat 0) with 0. change (Z.of_nat 0) with 0.
  destruct (Z.ltb_spec i 0), (Z.leb_spec 0 i); simpl; solve [done | lia].
Qed.

Lemma getitem_lookup (a : list F) (k : nat) (x : F) :
  a !! k = Some x -> getitem a (Z.of_nat k) = Ok x.
Proof.
  intros Hx. unfold getitem.
  rewrite np_index_nat by (by eapply lookup_lt_Some).
  rewrite bind_Ok. by rewrite Hx.
Qed.

Lemma setitem_insert (a : list F) (k : nat) (v : F) :
  (k < length a)%nat -> setitem a (Z.of_nat k) v = Ok (<[k := v]> a).
Proof.
  intros Hk. unfold setitem. by rewrite np_index_nat.
Qed.

Lemma np_zeros_replicate (n : Z) :
  0 <= n -> np_zeros n = Ok (replicate (Z.to_nat n) (f_zero : F)).
Proof.
  intros Hn. unfold np_zeros.
  destruct (Z.ltb_spec n 0); [lia | done].
Qed.

Lemma np_zeros_negative (n : Z) :
  n < 0 -> np_zeros n = (Raise ValueError : result (list F)).
Proof.
  intros Hn. unfold np_zeros.
  destruct (Z.ltb_spec n 0); [done | lia].
Qed.
End NumpyFacts.

(** ** The loop establishes the invariant *)

Section Integrator.
Context {F : Type} `{Scalar F}.
Variable cfg : Config F.

(** One pass of the body extends the filled prefix by one cell. *)
Lemma loop_body_filled (n k : nat) (st : State F) :
  filled cfg n k st -> (S k < n)%nat ->
  exists st' : State F,
    loop_body cfg (Z.of_nat (S k)) st = Ok st' /\ filled cfg n (S k) st'.
Proof.
  intros Hst Hk.
  destruct (lookup_lt_is_Some_2 (rock st) k) as [r Hr];
    [rewrite (filled_rock_length _ _ _ _ Hst); lia|].
  destruct (lookup_lt_is_Some_2 (atmo st) k) as [a Ha];
    [rewrite (filled_atmo_length _ _ _ _ Hst); lia|].
  pose proof (filled_rock_length _ _ _ _ Hst) as Lr.
  pose proof (filled_atmo_length _ _ _ _ Hst) as La.
  pose proof (filled_T_length _ _ _ _ Hst) as LT.
  unfold loop_body.
  replace (Z.of_nat (S k) - 1) with (Z.of_nat k) by lia.
  rewrite (getitem_lookup _ _ _ Hr), bind_Ok. cbv beta.
  rewrite bind_Ok. cbv beta.
  rewrite (getitem_lookup _ _ _ Ha), bind_Ok. cbv beta.
  rewrite setitem_insert, bind_Ok by lia. cbv beta.
  rewrite bind_Ok. cbv beta.
  rewrite (getitem_lookup (<[S k := _]> (rock st)) k r), bind_Ok
    by (rewrite list_lookup_insert_ne by lia; exact Hr).
  cbv beta.
  rewrite bind_Ok. cbv beta.
  rewrite setitem_insert, bind_Ok by lia. cbv beta.
  rewrite (getitem_lookup (<[S k := _]> (atmo st)) (S k) _), bind_Ok
    by (apply list_lookup_insert_eq; lia).
  cbv beta.
  rewrite setitem_insert, bind_Ok by lia. cbv beta.
  eexists. split; [reflexivity|].
  split; simpl.
  - apply (filled_time _ _ _ _ Hst).
  - by rewrite length_insert.
  - by rewrite length_insert.
  - by rewrite length_insert.
  - rewrite list_lookup_insert_ne by lia. apply (filled_rock_0 _ _ _ _ Hst).
  - rewrite list_lookup_insert_ne by lia. apply (filled_atmo_0 _ _ _ _ Hst).
  - rewrite list_lookup_insert_ne by lia. apply (filled_T_0 _ _ _ _ Hst).
  - intros j Hj. destruct (decide (j = k)) as [->|Hne].
    + exists r, a.
      rewrite !(list_lookup_insert_ne _ (S k) k) by lia.
      rewrite !list_lookup_insert_eq by lia. done.
    + destruct (filled_step _ _ _ _ Hst j) as (r' & a' & ? & ? & ? & ? & ?);
        [lia|].
      exists r', a'.
      rewrite !(list_lookup_insert_ne _ (S k) j) by lia.
      rewrite !(list_lookup_insert_ne _ (S k) (S j)) by lia. done.
Qed.

(** The remaining passes, from index [k+1] on, fill the rest. *)
Lemma for_each_filled (n m k : nat) (st : State F) :
  filled cfg n k st -> (S (k + m) = n)%nat ->
  exists st' : State F,
    for_each (seqZ (Z.of_nat (S k)) (Z.of_nat m)) (loop_body cfg) st = Ok st'
    /\ filled cfg n (k + m) st'.
Proof.
  revert k st. induction m as [|m IH]; intros k st Hst Hn.
  - exists st. split; [done|]. by rewrite Nat.add_0_r.
  - rewrite seqZ_cons by lia. simpl for_each.
    destruct (loop_body_filled n k st Hst) as (st1 & -> & Hst1); [lia|].
    rewrite bind_Ok.
    replace (Z.pred (Z.of_nat (S m))) with (Z.of_nat m) by lia.
    replace (Z.succ (Z.of_nat (S k))) with (Z.of_nat (S (S k))) by lia.
    destruct (IH (S k) st1 Hst1) as (st' & Hrun & Hst'); [lia|].
    exists st'. split; [done|].
    by replace (k + S m)%nat with (S k + m)%nat by lia.
Qed.

(** Allocation and the initial stores succeed when there is a cell 0. *)
Lemma set_initial_state_filled :
  1 <= time_steps cfg ->
  exists st : State F,
    (allocate cfg ≫= set_initial_state cfg) = Ok st /\
    filled cfg (Z.to_nat (time_steps cfg)) 0 st.
Proof.
  intros HN. unfold allocate.
  rewrite np_zeros_replicate by lia. rewrite !bind_Ok.
  unfold set_initial_state. cbn [rock atmo T time].
  change 0 with (Z.of_nat 0).
  rewrite !setitem_insert by (rewrite length_replicate; lia).
  rewrite !bind_Ok.
  eexists. split; [reflexivity|].
  split; cbn [rock atmo T time];
    rewrite ?length_insert, ?length_replicate; try done.
  - apply list_lookup_insert_eq. rewrite length_replicate; lia.
  - apply list_lookup_insert_eq. rewrite length_replicate; lia.
  - apply list_lookup_insert_eq. rewrite length_replicate; lia.
  - intros j Hj. lia.
Qed.

(** The whole run: it returns, and every cell after the first was
    written by the loop body. *)
Lemma run_filled :
  1 <= time_steps cfg ->
  exists st : State F,
    run cfg = Ok st /\
    filled cfg (Z.to_nat (time_steps cfg))
      (Z.to_nat (time_steps cfg) - 1) st.
Proof.
  intros HN.
  destruct (set_initial_state_filled HN) as (st0 & Hinit & Hst0).
  destruct (for_each_filled (Z.to_nat (time_steps cfg))
              (Z.to_nat (time_steps cfg) - 1) 0 st0 Hst0)
    as (st & Hloop & Hst); [lia|].
  exists st. split; [|exact Hst].
  unfold run. rewrite <- bind_assoc, Hinit, bind_Ok.
  unfold main_loop, py_range.
  replace (time_steps cfg - 1) with (Z.of_nat (Z.to_nat (time_steps cfg) - 1))
    by lia.
  exact Hloop.
Qed.
End Integrator.

(** ** Properties of the trajectory, for any scalar arithmetic *)

Section Trajectory.
Context {F : Type} `{Scalar F}.
Variable cfg : Config F.

(** Cells [i-1] and [i] of a finished run, read back with [a[i]]. *)
Lemma run_step (i : Z) :
  1 <= i <= time_steps cfg - 1 ->
  exists (st : State F) (r a : F),
    run cfg = Ok st /\
    getitem (rock st) (i - 1) = Ok r /\
    getitem (atmo st) (i - 1) = Ok a /\
    getitem (rock st) i = Ok (r - c1 cfg * r + c2 cfg * a)%F /\
    getitem (atmo st) i = Ok (a + c1 cfg * r - c2 cfg * a)%F /\
    getitem (T st) i =
      Ok (T_0 cfg + c3 cfg * ((a + c1 cfg * r - c2 cfg * a) - atmo_0 cfg))%F.
Proof.
  intros Hi.
  destruct (run_filled cfg) as (st & Hrun & Hst); [lia|].
  destruct (filled_step _ _ _ _ Hst (Z.to_nat (i - 1)))
    as (r & a & Hr & Ha & Hr' & Ha' & HT'); [lia|].
  exists st, r, a.
  replace (i - 1) with (Z.of_nat (Z.to_nat (i - 1))) by lia.
  replace i with (Z.of_nat (S (Z.to_nat (i - 1)))) at 3 4 5 by lia.
  by rewrite (getitem_lookup _ _ _ Hr), (getitem_lookup _ _ _ Ha),
    (getitem_lookup _ _ _ Hr'), (getitem_lookup _ _ _ Ha'),
    (getitem_lookup _ _ _ HT').
Qed.

(** Cells 0 and 1 of a finished run of at least two steps. *)
Lemma run_first_step :
  2 <= time_steps cfg ->
  exists st : State F,
    run cfg = Ok st /\
    getitem (rock st) 0 = Ok (rock_0 cfg) /\
    getitem (atmo st) 0 = Ok (atmo_0 cfg) /\
    getitem (rock st) 1 =
      Ok (rock_0 cfg - c1 cfg * rock_0 cfg + c2 cfg * atmo_0 cfg)%F /\
    getitem (atmo st) 1 =
      Ok (atmo_0 cfg + c1 cfg * rock_0 cfg - c2 cfg * atmo_0 cfg)%F /\
    getitem (T st) 1 =
      Ok (T_0 cfg + c3 cfg *
            ((atmo_0 cfg + c1 cfg * rock_0 cfg - c2 cfg * atmo_0 cfg)
             - atmo_0 cfg))%F.
Proof.
  intros HN.
  destruct (run_filled cfg) as (st & Hrun & Hst); [lia|].
  destruct (filled_step _ _ _ _ Hst 0%nat)
    as (r & a & Hr & Ha & Hr' & Ha' & HT'); [lia|].
  rewrite (filled_rock_0 _ _ _ _ Hst) in Hr.
  rewrite (filled_atmo_0 _ _ _ _ Hst) in Ha. simplify_eq.
  exists st. change 0 with (Z.of_nat 0). change 1 with (Z.of_nat 1).
  by rewrite (getitem_lookup _ _ _ (filled_rock_0 _ _ _ _ Hst)),
    (getitem_lookup _ _ _ (filled_atmo_0 _ _ _ _ Hst)),
    (getitem_lookup _ _ _ Hr'), (getitem_lookup _ _ _ Ha'),
    (getitem_lookup _ _ _ HT').
Qed.

(** C1: for every step [i] with [1 <= i <= N-1] the run returns a
    trajectory in which [rock[i]], [atmo[i]] and [T[i]] are the
    explicit-Euler update of the previous-step values:
    [rock[i] = rock[i-1] - c1*rock[i-1] + c2*atmo[i-1]],
    [atmo[i] = atmo[i-1] + c1*rock[i-1] - c2*atmo[i-1]] and
    [T[i] = T_0 + c3*(atmo[i] - atmo_0)]. *)
Theorem euler_recurrence (i : Z) :
  1 <= i <= time_steps cfg - 1 ->
  exists (st : State F) (r a r' a' t' : F),
    run cfg = Ok st /\
    getitem (rock st) (i - 1) = Ok r /\
    getitem (atmo st) (i - 1) = Ok a /\
    getitem (rock st) i = Ok r' /\
    getitem (atmo st) i = Ok a' /\
    getitem (T st) i = Ok t' /\
    r' = (r - c1 cfg * r + c2 cfg * a)%F /\
    a' = (a + c1 cfg * r - c2 cfg * a)%F /\
    t' = (T_0 cfg + c3 cfg * (a' - atmo_0 cfg))%F.
Proof.
  intros Hi.
  destruct (run_step i Hi) as (st & r & a & Hrun & Hr & Ha & Hr' & Ha' & HT').
  exists st, r, a. do 3 eexists.
  repeat split; eassumption || reflexivity.
Qed.

(** C7: for every step count [N >= 1] the run returns, and each of
    [rock], [atmo] and [T] (and the time axis) has exactly [N] cells. *)
Theorem trajectory_length :
  1 <= time_steps cfg ->
  exists st : State F,
    run cfg = Ok st /\
    Z.of_nat (length (rock st)) = time_steps cfg /\
    Z.of_nat (length (atmo st)) = time_steps cfg /\
    Z.of_nat (length (T st)) = time_steps cfg /\
    Z.of_nat (length (time st)) = time_steps cfg.
Proof.
  intros HN.
  destruct (run_filled cfg HN) as (st & Hrun & Hst).
  exists st. split; [exact Hrun|].
  rewrite (filled_rock_length _ _ _ _ Hst), (filled_atmo_length _ _ _ _ Hst),
    (filled_T_length _ _ _ _ Hst), (filled_time _ _ _ _ Hst).
  unfold np_arange. rewrite length_seqZ. lia.
Qed.

(** C8: for every step count [N >= 1] the first cells hold the initial
    state: [rock[0] = rock_0], [atmo[0] = atmo_0], [T[0] = T_0]. *)
Theorem initial_entries :
  1 <= time_steps cfg ->
  exists st : State F,
    run cfg = Ok st /\
    getitem (rock st) 0 = Ok (rock_0 cfg) /\
    getitem (atmo st) 0 = Ok (atmo_0 cfg) /\
    getitem (T st) 0 = Ok (T_0 cfg).
Proof.
  intros HN.
  destruct (run_filled cfg HN) as (st & Hrun & Hst).
  exists st. split; [exact Hrun|].
  change 0 with (Z.of_nat 0).
  by rewrite (getitem_lookup _ _ _ (filled_rock_0 _ _ _ _ Hst)),
    (getitem_lookup _ _ _ (filled_atmo_0 _ _ _ _ Hst)),
    (getitem_lookup _ _ _ (filled_T_0 _ _ _ _ Hst)).
Qed.

(** C9: for [N = 1] the loop ranges over no index, the run returns the
    state as the initial stores left it, and that state is the initial
    state alone. *)
Theorem single_step_run :
  time_steps cfg = 1 ->
  py_range 1 (time_steps cfg) = [] /\
  run cfg = (allocate cfg ≫= set_initial_state cfg) /\
  run cfg = Ok {| time := [0]; rock := [rock_0 cfg];
                  atmo := [atmo_0 cfg]; T := [T_0 cfg] |}.
Proof.
  intros HN. unfold run, main_loop, allocate. rewrite HN.
  repeat split.
Qed.

Lemma allocate_negative :
  time_steps cfg < 0 -> allocate cfg = Raise ValueError.
Proof.
  intros HN. unfold allocate. by rewrite np_zeros_negative.
Qed.

Lemma set_initial_state_empty :
  time_steps cfg = 0 ->
  (allocate cfg ≫= set_initial_state cfg) = Raise IndexError.
Proof.
  intros HN. unfold allocate. rewrite HN. reflexivity.
Qed.

(** C10: for every step count [N <= 0] the run raises, and it does so
    before the loop: [np.zeros] raises ValueError for [N < 0], and the
    store to [rock[0]] raises IndexError for [N = 0]. *)
Theorem nonpositive_steps_raise :
  time_steps cfg <= 0 ->
  exists e : PyError,
    (allocate cfg ≫= set_initial_state cfg) = Raise e /\
    run cfg = Raise e /\
    e = (if time_steps cfg <? 0 then ValueError else IndexError).
Proof.
  intros HN. unfold run. rewrite <- bind_assoc.
  destruct (Z.ltb_spec (time_steps cfg) 0) as [Hneg|Hzero].
  - exists ValueError. by rewrite allocate_negative.
  - exists IndexError. by rewrite set_initial_state_empty by lia.
Qed.

(** C4, amended: [atmo[i]] is computed from the previous-step rock
    value [rock[i-1]], which the store to [rock[i]] leaves in place:
    [atmo[i] = atmo[i-1] + c1*rock[i-1] - c2*atmo[i-1]] for every step
    [1 <= i <= N-1]. *)
Theorem atmo_uses_previous_rock (i : Z) :
  1 <= i <= time_steps cfg - 1 ->
  exists (st : State F) (r a a' : F),
    run cfg = Ok st /\
    getitem (rock st) (i - 1) = Ok r /\
    getitem (atmo st) (i - 1) = Ok a /\
    getitem (atmo st) i = Ok a' /\
    a' = (a + c1 cfg * r - c2 cfg * a)%F.
Proof.
  intros Hi.
  destruct (run_step i Hi) as (st & r & a & Hrun & Hr & Ha & _ & Ha' & _).
  by exists st, r, a, (a + c1 cfg * r - c2 cfg * a)%F.
Qed.
End Trajectory.

(** ** Exact arithmetic: the run over [Q] *)

Section Exact.
Variable cfg : Config Q.

(** Every filled cell carries the initial total. *)
Lemma filled_total (n k : nat) (st : State Q) :
  filled cfg n k st ->
  forall j : nat, (j <= k)%nat ->
    exists r a : Q,
      rock st !! j = Some r /\ atmo st !! j = Some a /\
      (r + a == rock_0 cfg + atmo_0 cfg)%Q.
Proof.
  intros Hst. induction j as [|j IH]; intros Hj.
  - exists (rock_0 cfg), (atmo_0 cfg).
    by rewrite (filled_rock_0 _ _ _ _ Hst), (filled_atmo_0 _ _ _ _ Hst).
  - destruct IH as (r & a & Hr & Ha & Hsum); [lia|].
    destruct (filled_step _ _ _ _ Hst j) as (r0 & a0 & Hr0 & Ha0 & Hr' & Ha' & _);
      [lia|].
    rewrite Hr in Hr0. rewrite Ha in Ha0. simplify_eq.
    eexists _, _. split; [exact Hr'|]. split; [exact Ha'|].
    rewrite <- Hsum. cbn [f_add f_sub f_mul Q_scalar]. ring.
Qed.

(** With both rates zero every filled cell repeats the initial state. *)
Lemma filled_frozen (n k : nat) (st : State Q) :
  (c1 cfg == 0)%Q -> (c2 cfg == 0)%Q ->
  filled cfg n k st ->
  forall j : nat, (j <= k)%nat ->
    exists r a t : Q,
      rock st !! j = Some r /\ atmo st !! j = Some a /\ T st !! j = Some t /\
      (r == rock_0 cfg)%Q /\ (a == atmo_0 cfg)%Q /\ (t == T_0 cfg)%Q.
Proof.
  intros Hc1 Hc2 Hst. induction j as [|j IH]; intros Hj.
  - exists (rock_0 cfg), (atmo_0 cfg), (T_0 cfg).
    by rewrite (filled_rock_0 _ _ _ _ Hst), (filled_atmo_0 _ _ _ _ Hst),
      (filled_T_0 _ _ _ _ Hst).
  - destruct IH as (r & a & t & Hr & Ha & _ & Er & Ea & _); [lia|].
    destruct (filled_step _ _ _ _ Hst j)
      as (r0 & a0 & Hr0 & Ha0 & Hr' & Ha' & HT'); [lia|].
    rewrite Hr in Hr0. rewrite Ha in Ha0. simplify_eq.
    eexists _, _, _. split; [exact Hr'|]. split; [exact Ha'|].
    split; [exact HT'|].
    cbn [f_add f_sub f_mul Q_scalar].
    rewrite Hc1, Hc2, Er, Ea. repeat split; ring.
Qed.

(** C3: for every step [i] in [0 .. N-1] the run returns a trajectory
    with [rock[i] + atmo[i] == rock_0 + atmo_0]: the loop adds to the
    atmosphere what it takes from the rock. *)
Theorem total_carbon_invariant (i : Z) :
  0 <= i <= time_steps cfg - 1 ->
  exists (st : State Q) (r a : Q),
    run cfg = Ok st /\
    getitem (rock st) i = Ok r /\
    getitem (atmo st) i = Ok a /\
    (r + a == rock_0 cfg + atmo_0 cfg)%Q.
Proof.
  intros Hi.
  destruct (run_filled cfg) as (st & Hrun & Hst); [lia|].
  destruct (filled_total _ _ _ Hst (Z.to_nat i)) as (r & a & Hr & Ha & Hsum); [lia|].
  exists st, r, a.
  replace i with (Z.of_nat (Z.to_nat i)) by lia.
  by rewrite (getitem_lookup _ _ _ Hr), (getitem_lookup _ _ _ Ha).
Qed.

(** C2, amended: total carbon is conserved across every step, whether
    or not [c1*rock[i-1] == c2*atmo[i-1]]: for every step
    [1 <= i <= N-1], [rock[i] + atmo[i] == rock[i-1] + atmo[i-1]]. *)
Theorem step_conserves_carbon (i : Z) :
  1 <= i <= time_steps cfg - 1 ->
  exists (st : State Q) (r a r' a' : Q),
    run cfg = Ok st /\
    getitem (rock st) (i - 1) = Ok r /\
    getitem (atmo st) (i - 1) = Ok a /\
    getitem (rock st) i = Ok r' /\
    getitem (atmo st) i = Ok a' /\
    (r' + a' == r + a)%Q.
Proof.
  intros Hi.
  destruct (run_step cfg i Hi) as (st & r & a & Hrun & Hr & Ha & Hr' & Ha' & _).
  exists st, r, a. eexists _, _.
  repeat (split; [eassumption|]).
  cbn [f_add f_sub f_mul Q_scalar]. ring.
Qed.

(** C6: if [c1 = 0] and [c2 = 0] then for every step [i] in
    [0 .. N-1] the trajectory repeats the initial state:
    [rock[i] == rock_0], [atmo[i] == atmo_0] and [T[i] == T_0]. *)
Theorem zero_rates_constant (i : Z) :
  (c1 cfg == 0)%Q -> (c2 cfg == 0)%Q ->
  0 <= i <= time_steps cfg - 1 ->
  exists (st : State Q) (r a t : Q),
    run cfg = Ok st /\
    getitem (rock st) i = Ok r /\
    getitem (atmo st) i = Ok a /\
    getitem (T st) i = Ok t /\
    (r == rock_0 cfg)%Q /\ (a == atmo_0 cfg)%Q /\ (t == T_0 cfg)%Q.
Proof.
  intros Hc1 Hc2 Hi.
  destruct (run_filled cfg) as (st & Hrun & Hst); [lia|].
  destruct (filled_frozen _ _ _ Hc1 Hc2 Hst (Z.to_nat i))
    as (r & a & t & Hr & Ha & HT & E); [lia|].
  exists st, r, a, t.
  replace i with (Z.of_nat (Z.to_nat i)) by lia.
  by rewrite (getitem_lookup _ _ _ Hr), (getitem_lookup _ _ _ Ha),
    (getitem_lookup _ _ _ HT).
Qed.
End Exact.

(** ** The script's own constants *)

(** C5: with the default constants the first computed step is
    [rock[1] = 991.5], [atmo[1] = 308.5], [T[1] = 15.17]. *)
Theorem default_first_step :
  exists (st : State Q) (r a t : Q),
    run default_config = Ok st /\
    getitem (rock st) 1 = Ok r /\
    getitem (atmo st) 1 = Ok a /\
    getitem (T st) 1 = Ok t /\
    (r == 991.5)%Q /\ (a == 308.5)%Q /\ (t == 15.17)%Q.
Proof.
  destruct (run_first_step default_config)
    as (st & Hrun & _ & _ & Hr & Ha & HT); [by vm_compute|].
  eexists st, _, _, _.
  split; [exact Hrun|]. split; [exact Hr|]. split; [exact Ha|].
  split; [exact HT|].
  clear. vm_compute. repeat split.
Qed.

(** In binary64, as numpy runs it, the first step gives the same three
    numbers. *)
Example default_first_step_binary64 :
  (st ← run default_config_binary64;
   r ← getitem (rock st) 1;
   a ← getitem (atmo st) 1;
   t ← getitem (T st) 1;
   Ok (r, a, t))
  = Ok (991.5, 308.5, 15.17)%float.
Proof. by vm_compute. Qed.

(** In binary64 the total is kept only up to rounding: at step 30 the
    sum of the two reservoirs is no longer the float 1300. *)
Example total_drifts_binary64 :
  (st ← run default_config_binary64;
   r ← getitem (rock st) 30;
   a ← getitem (atmo st) 30;
   Ok (PrimFloat.eqb (r + a) 1300))
  = Ok false.
Proof. by vm_compute. Qed.

(** In binary64, with both rates zero, all thousand cells repeat the
    initial state. *)
Example frozen_run_binary64 :
  run frozen_config_binary64 =
    Ok {| time := seqZ 0 1000;
          rock := replicate 1000 1000%float;
          atmo := replicate 1000 300%float;
          T := replicate 1000 15%float |}.
Proof. vm_compute. reflexivity. Qed.

(** C2 fails on the script's constants: at step 1 the two fluxes differ
    ([c1*rock[0] = 10], [c2*atmo[0] = 1.5]) and the total is unchanged
    ([991.5 + 308.5 = 1000 + 300]); and no step of the run changes the
    total. *)
Lemma default_step_unbalanced_and_conserved :
  (exists (st : State Q) (r a r' a' : Q),
     run default_config = Ok st /\
     getitem (rock st) 0 = Ok r /\
     getitem (atmo st) 0 = Ok a /\
     getitem (rock st) 1 = Ok r' /\
     getitem (atmo st) 1 = Ok a' /\
     ~ (c1 default_config * r == c2 default_config * a)%Q /\
     (r' + a' == r + a)%Q)
  /\
  ~ (exists (i : Z) (st : State Q) (r a r' a' : Q),
       1 <= i <= time_steps default_config - 1 /\
       run default_config = Ok st /\
       getitem (rock st) (i - 1) = Ok r /\
       getitem (atmo st) (i - 1) = Ok a /\
       getitem (rock st) i = Ok r' /\
       getitem (atmo st) i = Ok a' /\
       ~ (c1 default_config * r == c2 default_config * a)%Q /\
       ~ (r' + a' == r + a)%Q).
Proof.
  split.
  - destruct (run_first_step default_config)
      as (st & Hrun & Hr & Ha & Hr' & Ha' & _); [by vm_compute|].
    eexists st, _, _, _, _.
    split; [exact Hrun|]. split; [exact Hr|]. split; [exact Ha|].
    split; [exact Hr'|]. split; [exact Ha'|].
    clear. vm_compute. split; [discriminate | reflexivity].
  - intros (i & st & r & a & r' & a' & Hi & Hrun & Hr & Ha & Hr' & Ha' & _ & Hne).
    destruct (run_step default_config i Hi)
      as (st0 & r0 & a0 & Hrun0 & Hr0 & Ha0 & Hr0' & Ha0' & _).
    rewrite Hrun in Hrun0. injection Hrun0 as <-.
    rewrite Hr in Hr0. injection Hr0 as <-.
    rewrite Ha in Ha0. injection Ha0 as <-.
    rewrite Hr' in Hr0'. injection Hr0' as ->.
    rewrite Ha' in Ha0'. injection Ha0' as ->.
    apply Hne. cbn [f_add f_sub f_mul Q_scalar]. ring.
Qed.

(** C4 fails on the script's constants: [atmo[1] = 308.5], where the
    updated [rock[1] = 991.5] would give
    [300 + 0.01*991.5 - 0.005*300 = 308.415]. *)
Lemma default_atmo_ignores_updated_rock :
  exists (st : State Q) (a r' a' : Q),
    run default_config = Ok st /\
    getitem (atmo st) 0 = Ok a /\
    getitem (rock st) 1 = Ok r' /\
    getitem (atmo st) 1 = Ok a' /\
    (a' == 308.5)%Q /\
    (a + c1 default_config * r' - c2 default_config * a == 308.415)%Q /\
    ~ (a' == a + c1 default_config * r' - c2 default_config * a)%Q.
Proof.
  destruct (run_first_step default_config)
    as (st & Hrun & _ & Ha & Hr' & Ha' & _); [by vm_compute|].
  eexists st, _, _, _.
  split; [exact Hrun|]. split; [exact Ha|]. split; [exact Hr'|].
  split; [exact Ha'|].
  clear. vm_compute. repeat split. discriminate.
Qed.

(** ** The theorems at concrete inputs *)

(** A negative step count: [np.zeros] raises. *)
Example negative_steps_run :
  run (with_time_steps small_config (-2)) = Raise ValueError.
Proof. reflexivity. Qed.

(** The recurrence at step 2 of the three-step run. *)
Lemma euler_recurrence_witness :
  1 <= 2 <= time_steps small_config - 1 /\
  exists (st : State Q) (r a r' a' t' : Q),
    run small_config = Ok st /\
    getitem (rock st) (2 - 1) = Ok r /\
    getitem (atmo st) (2 - 1) = Ok a /\
    getitem (rock st) 2 = Ok r' /\
    getitem (atmo st) 2 = Ok a' /\
    getitem (T st) 2 = Ok t' /\
    r' = (r - c1 small_config * r + c2 small_config * a)%F /\
    a' = (a + c1 small_config * r - c2 small_config * a)%F /\
    t' = (T_0 small_config + c3 small_config * (a' - atmo_0 small_config))%F.
Proof.
  split; [simpl; lia | apply (euler_recurrence small_config 2); simpl; lia].
Defined.

(** Conservation across step 2 of the three-step run. *)
Lemma step_conserves_carbon_witness :
  1 <= 2 <= time_steps small_config - 1 /\
  exists (st : State Q) (r a r' a' : Q),
    run small_config = Ok st /\
    getitem (rock st) (2 - 1) = Ok r /\
    getitem (atmo st) (2 - 1) = Ok a /\
    getitem (rock st) 2 = Ok r' /\
    getitem (atmo st) 2 = Ok a' /\
    (r' + a' == r + a)%Q.
Proof.
  split; [simpl; lia | apply (step_conserves_carbon small_config 2); simpl; lia].
Defined.

(** The total at step 2 of the three-step run. *)
Lemma total_carbon_invariant_witness :
  0 <= 2 <= time_steps small_config - 1 /\
  exists (st : State Q) (r a : Q),
    run small_config = Ok st /\
    getitem (rock st) 2 = Ok r /\
    getitem (atmo st) 2 = Ok a /\
    (r + a == rock_0 small_config + atmo_0 small_config)%Q.
Proof.
  split; [simpl; lia | apply (total_carbon_invariant small_config 2); simpl; lia].
Defined.

(** The atmosphere update at step 2 of the three-step run. *)
Lemma atmo_uses_previous_rock_witness :
  1 <= 2 <= time_steps small_config - 1 /\
  exists (st : State Q) (r a a' : Q),
    run small_config = Ok st /\
    getitem (rock st) (2 - 1) = Ok r /\
    getitem (atmo st) (2 - 1) = Ok a /\
    getitem (atmo st) 2 = Ok a' /\
    a' = (a + c1 small_config * r - c2 small_config * a)%F.
Proof.
  split; [simpl; lia | apply (atmo_uses_previous_rock small_config 2); simpl; lia].
Defined.

(** Step 2 of the three-step run with zero rates. *)
Lemma zero_rates_constant_witness :
  ((c1 frozen_config == 0)%Q /\ (c2 frozen_config == 0)%Q /\
   0 <= 2 <= time_steps frozen_config - 1) /\
  exists (st : State Q) (r a t : Q),
    run frozen_config = Ok st /\
    getitem (rock st) 2 = Ok r /\
    getitem (atmo st) 2 = Ok a /\
    getitem (T st) 2 = Ok t /\
    (r == rock_0 frozen_config)%Q /\ (a == atmo_0 frozen_config)%Q /\
    (t == T_0 frozen_config)%Q.
Proof.
  split.
  - repeat split; simpl; lia.
  - apply (zero_rates_constant frozen_config 2);
      [reflexivity | reflexivity | simpl; lia].
Defined.

(** The lengths of the three-step run. *)
Lemma trajectory_length_witness :
  1 <= time_steps small_config /\
  exists st : State Q,
    run small_config = Ok st /\
    Z.of_nat (length (rock st)) = time_steps small_config /\
    Z.of_nat (length (atmo st)) = time_steps small_config /\
    Z.of_nat (length (T st)) = time_steps small_config /\
    Z.of_nat (length (time st)) = time_steps small_config.
Proof.
  split; [simpl; lia | apply (trajectory_length small_config); simpl; lia].
Defined.

(** The first cells of the three-step run. *)
Lemma initial_entries_witness :
  1 <= time_steps small_config /\
  exists st : State Q,
    run small_config = Ok st /\
    getitem (rock st) 0 = Ok (rock_0 small_config) /\
    getitem (atmo st) 0 = Ok (atmo_0 small_config) /\
    getitem (T st) 0 = Ok (T_0 small_config).
Proof.
  split; [simpl; lia | apply (initial_entries small_config); simpl; lia].
Defined.

(** The run with a single step. *)
Lemma single_step_run_witness :
  time_steps (with_time_steps small_config 1) = 1 /\
  py_range 1 (time_steps (with_time_steps small_config 1)) = [] /\
  run (with_time_steps small_config 1) =
    (allocate (with_time_steps small_config 1)
       ≫= set_initial_state (with_time_steps small_config 1)) /\
  run (with_time_steps small_config 1) =
    Ok {| time := [0]; rock := [8%Q]; atmo := [4%Q]; T := [1%Q] |}.
Proof.
  split;
    [reflexivity
    | apply (single_step_run (with_time_steps small_config 1)); reflexivity].
Defined.

(** The run with zero steps: the store to [rock[0]] raises. *)
Lemma nonpositive_steps_raise_witness :
  time_steps (with_time_steps small_config 0) <= 0 /\
  exists e : PyError,
    (allocate (with_time_steps small_config 0)
       ≫= set_initial_state (with_time_steps small_config 0)) = Raise e /\
    run (with_time_steps small_config 0) = Raise e /\
    e = IndexError.
Proof.
  split;
    [simpl; lia
    | apply (nonpositive_steps_raise (with_time_steps small_config 0));
      simpl; lia].
Defined.

(** * Further properties of the integrator *)

(** ** Induction over the filled cells *)

Section Cells.
Context {F : Type} `{Scalar F}.

(** A property of the pair [(rock[j], atmo[j])] that holds of the
    initial state and is kept by lines 38-39 holds of every filled
    cell. *)
Lemma filled_cells_ind (cfg : Config F) (P : nat -> F -> F -> Prop)
    (n k : nat) (st : State F) :
  filled cfg n k st ->
  P 0%nat (rock_0 cfg) (atmo_0 cfg) ->
  (forall (j : nat) (r a : F), (j < k)%nat -> P j r a ->
     P (S j) (r - c1 cfg * r + c2 cfg * a)%F
             (a + c1 cfg * r - c2 cfg * a)%F) ->
  forall j : nat, (j <= k)%nat ->
    exists r a : F,
      rock st !! j = Some r /\ atmo st !! j = Some a /\ P j r a.
Proof.
  intros Hst H0 Hstep. induction j as [|j IH]; intros Hj.
  - exists (rock_0 cfg), (atmo_0 cfg).
    by rewrite (filled_rock_0 _ _ _ _ Hst), (filled_atmo_0 _ _ _ _ Hst).
  - destruct IH as (r & a & Hr & Ha & HP); [lia|].
    destruct (filled_step _ _ _ _ Hst j)
      as (r0 & a0 & Hr0 & Ha0 & Hr' & Ha' & _); [lia|].
    rewrite Hr in Hr0. rewrite Ha in Ha0.
    injection Hr0 as <-. injection Ha0 as <-.
    eexists _, _. split; [exact Hr'|]. split; [exact Ha'|].
    apply Hstep; [lia | exact HP].
Qed.

(** The same for a relation between the cells of two runs. *)
Lemma filled_cells_rel (cfg cfg' : Config F)
    (R : nat -> F -> F -> F -> F -> Prop)
    (n n' k k' : nat) (st st' : State F) :
  filled cfg n k st -> filled cfg' n' k' st' ->
  R 0%nat (rock_0 cfg) (atmo_0 cfg) (rock_0 cfg') (atmo_0 cfg') ->
  (forall (j : nat) (r a r' a' : F), (j < k)%nat -> (j < k')%nat ->
     R j r a r' a' ->
     R (S j) (r - c1 cfg * r + c2 cfg * a)%F
             (a + c1 cfg * r - c2 cfg * a)%F
             (r' - c1 cfg' * r' + c2 cfg' * a')%F
             (a' + c1 cfg' * r' - c2 cfg' * a')%F) ->
  forall j : nat, (j <= k)%nat -> (j <= k')%nat ->
    exists r a r' a' : F,
      rock st !! j = Some r /\ atmo st !! j = Some a /\
      rock st' !! j = Some r' /\ atmo st' !! j = Some a' /\
      R j r a r' a'.
Proof.
  intros Hst Hst' H0 Hstep. induction j as [|j IH]; intros Hj Hj'.
  - exists (rock_0 cfg), (atmo_0 cfg), (rock_0 cfg'), (atmo_0 cfg').
    by rewrite (filled_rock_0 _ _ _ _ Hst), (filled_atmo_0 _ _ _ _ Hst),
      (filled_rock_0 _ _ _ _ Hst'), (filled_atmo_0 _ _ _ _ Hst').
  - destruct IH as (r & a & r' & a' & Hr & Ha & Hr' & Ha' & HR); [lia|lia|].
    destruct (filled_step _ _ _ _ Hst j)
      as (r0 & a0 & Hr0 & Ha0 & Hr1 & Ha1 & _); [lia|].
    destruct (filled_step _ _ _ _ Hst' j)
      as (r0' & a0' & Hr0' & Ha0' & Hr1' & Ha1' & _); [lia|].
    rewrite Hr in Hr0. rewrite Ha in Ha0.
    rewrite Hr' in Hr0'. rewrite Ha' in Ha0'.
    injection Hr0 as <-. injection Ha0 as <-.
    injection Hr0' as <-. injection Ha0' as <-.
    eexists _, _, _, _.
    split; [exact Hr1|]. split; [exact Ha1|].
    split; [exact Hr1'|]. split; [exact Ha1'|].
    apply Hstep; [lia | lia | exact HR].
Qed.

(** Two runs with the same rates and initial reservoirs agree on every
    carbon cell both have filled. *)
Lemma filled_agree_carbon (cfg cfg' : Config F) (n n' k k' : nat)
    (st st' : State F) :
  c1 cfg = c1 cfg' -> c2 cfg = c2 cfg' ->
  rock_0 cfg = rock_0 cfg' -> atmo_0 cfg = atmo_0 cfg' ->
  filled cfg n k st -> filled cfg' n' k' st' ->
  forall j : nat, (j <= k)%nat -> (j <= k')%nat ->
    rock st !! j = rock st' !! j /\ atmo st !! j = atmo st' !! j.
Proof.
  intros E1 E2 Er Ea Hst Hst' j Hj Hj'.
  destruct (filled_cells_rel cfg cfg'
              (fun _ r a r' a' => r = r' /\ a = a') n n' k k' st st' Hst Hst')
    with (j := j) as (r & a & r' & a' & -> & -> & -> & -> & -> & ->);
    [done | | lia | lia | done].
  intros i r a r' a' _ _ [-> ->]. by rewrite E1, E2.
Qed.

(** With the same sensitivity and initial temperature as well, they
    agree on the temperature cells. *)
Lemma filled_agree_T (cfg cfg' : Config F) (n n' k k' : nat)
    (st st' : State F) :
  c1 cfg = c1 cfg' -> c2 cfg = c2 cfg' -> c3 cfg = c3 cfg' ->
  rock_0 cfg = rock_0 cfg' -> atmo_0 cfg = atmo_0 cfg' ->
  T_0 cfg = T_0 cfg' ->
  filled cfg n k st -> filled cfg' n' k' st' ->
  forall j : nat, (j <= k)%nat -> (j <= k')%nat ->
    T st !! j = T st' !! j.
Proof.
  intros E1 E2 E3 Er Ea ET Hst Hst' [|j] Hj Hj'.
  - by rewrite (filled_T_0 _ _ _ _ Hst), (filled_T_0 _ _ _ _ Hst'), ET.
  - destruct (filled_agree_carbon cfg cfg' n n' k k' st st'
                E1 E2 Er Ea Hst Hst' j) as [Hr Ha]; [lia|lia|].
    destruct (filled_step _ _ _ _ Hst j)
      as (r & a & Hr0 & Ha0 & _ & _ & HT); [lia|].
    destruct (filled_step _ _ _ _ Hst' j)
      as (r' & a' & Hr0' & Ha0' & _ & _ & HT'); [lia|].
    rewrite Hr, Hr0' in Hr0. rewrite Ha, Ha0' in Ha0.
    injection Hr0 as ->. injection Ha0 as ->.
    by rewrite HT, HT', E1, E2, E3, Ea, ET.
Qed.
End Cells.

(** ** Runs with no cell 0 *)

(** With [N <= 0] the run raises, and which error depends on [N] only. *)
Lemma nonpositive_run_raises {F : Type} `{Scalar F} (cfg : Config F) :
  time_steps cfg <= 0 ->
  exists e : PyError,
    run cfg = Raise e /\
    e = (if time_steps cfg <? 0 then ValueError else IndexError).
Proof.
  intros HN. unfold run. rewrite <- bind_assoc.
  destruct (Z.ltb_spec (time_steps cfg) 0) as [Hneg|Hzero].
  - exists ValueError. by rewrite allocate_negative.
  - exists IndexError. by rewrite set_initial_state_empty by lia.
Qed.

(** ** Runs compared with one another *)

Section Runs.
Context {F : Type} `{Scalar F}.
Variable cfg : Config F.

(** The time axis handed to the plot counts the cells: for every step
    [0 <= i <= N-1] the run returns with [time[i] = i]. *)
Theorem time_axis_counts_steps (i : Z) :
  0 <= i <= time_steps cfg - 1 ->
  exists st : State F,
    run cfg = Ok st /\ getitem (time st) i = Ok i.
Proof.
  intros Hi.
  destruct (run_filled cfg) as (st & Hrun & Hst); [lia|].
  exists st. split; [exact Hrun|].
  rewrite (filled_time _ _ _ _ Hst). unfold np_arange.
  replace i with (Z.of_nat (Z.to_nat i)) at 1 by lia.
  apply getitem_lookup.
  rewrite lookup_seqZ. split; lia.
Qed.

(** A run with fewer steps is a prefix of a run with more: the loop
    never revises a cell it has written, and no cell depends on the
    step count. *)
Theorem shorter_run_is_prefix (n m : Z) :
  1 <= n <= m ->
  exists st st' : State F,
    run (with_time_steps cfg n) = Ok st /\
    run (with_time_steps cfg m) = Ok st' /\
    time st = take (Z.to_nat n) (time st') /\
    rock st = take (Z.to_nat n) (rock st') /\
    atmo st = take (Z.to_nat n) (atmo st') /\
    T st = take (Z.to_nat n) (T st').
Proof.
  intros Hnm.
  destruct (run_filled (with_time_steps cfg n)) as (st & Hrun & Hst);
    [simpl; lia|].
  destruct (run_filled (with_time_steps cfg m)) as (st' & Hrun' & Hst');
    [simpl; lia|].
  simpl time_steps in Hst, Hst'.
  exists st, st'. split; [exact Hrun|]. split; [exact Hrun'|].
  assert (forall l l' : list F,
            length l = Z.to_nat n -> length l' = Z.to_nat m ->
            (forall j : nat, (j <= Z.to_nat n - 1)%nat -> l !! j = l' !! j) ->
            l = take (Z.to_nat n) l') as Htake.
  { intros l l' Hl Hl' Hcells. apply list_eq. intros j.
    destruct (decide (j < Z.to_nat n)%nat) as [Hj|Hj].
    - rewrite lookup_take_lt by exact Hj. apply Hcells. lia.
    - rewrite lookup_take_ge by lia. apply lookup_ge_None. lia. }
  split.
  - rewrite (filled_time _ _ _ _ Hst), (filled_time _ _ _ _ Hst').
    unfold np_arange. simpl time_steps. apply list_eq. intros j.
    destruct (decide (j < Z.to_nat n)%nat) as [Hj|Hj].
    + rewrite lookup_take_lt by exact Hj.
      rewrite (proj2 (lookup_seqZ 0 n j (0 + Z.of_nat j))) by lia.
      by rewrite (proj2 (lookup_seqZ 0 m j (0 + Z.of_nat j))) by lia.
    + rewrite lookup_take_ge by lia. apply lookup_ge_None.
      rewrite length_seqZ. lia.
  - repeat split; apply Htake;
      try apply (filled_rock_length _ _ _ _ Hst);
      try apply (filled_rock_length _ _ _ _ Hst');
      try apply (filled_atmo_length _ _ _ _ Hst);
      try apply (filled_atmo_length _ _ _ _ Hst');
      try apply (filled_T_length _ _ _ _ Hst);
      try apply (filled_T_length _ _ _ _ Hst');
      intros j Hj.
    + apply (filled_agree_carbon (with_time_steps cfg n)
               (with_time_steps cfg m) _ _ _ _ st st'
               eq_refl eq_refl eq_refl eq_refl Hst Hst' j); lia.
    + apply (filled_agree_carbon (with_time_steps cfg n)
               (with_time_steps cfg m) _ _ _ _ st st'
               eq_refl eq_refl eq_refl eq_refl Hst Hst' j); lia.
    + apply (filled_agree_T (with_time_steps cfg n)
               (with_time_steps cfg m) _ _ _ _ st st'
               eq_refl eq_refl eq_refl eq_refl eq_refl eq_refl Hst Hst' j);
        lia.
Qed.

(** The temperature never feeds back into the carbon: whatever the
    sensitivity [c3] and the initial temperature [T_0], the run ends the
    same way -- the same error, or the same [rock] and [atmo] arrays. *)
Theorem carbon_ignores_temperature (c3' T_0' : F) :
  (st ← run (with_temperature cfg c3' T_0'); Ok (rock st, atmo st))
  = (st ← run cfg; Ok (rock st, atmo st)).
Proof.
  destruct (Z.le_gt_cases 1 (time_steps cfg)) as [HN|HN].
  - destruct (run_filled cfg HN) as (st & -> & Hst).
    destruct (run_filled (with_temperature cfg c3' T_0') HN)
      as (st' & -> & Hst').
    simpl time_steps in Hst'. rewrite !bind_Ok.
    assert (forall j : nat,
              rock st' !! j = rock st !! j /\ atmo st' !! j = atmo st !! j)
      as Hcells.
    { intros j.
      destruct (decide (j <= Z.to_nat (time_steps cfg) - 1)%nat) as [Hj|Hj].
      - by apply (filled_agree_carbon (with_temperature cfg c3' T_0') cfg
                    _ _ _ _ st' st
                    eq_refl eq_refl eq_refl eq_refl Hst' Hst j).
      - rewrite !(proj2 (lookup_ge_None _ _)); [done | | | |].
        + rewrite (filled_atmo_length _ _ _ _ Hst). lia.
        + rewrite (filled_atmo_length _ _ _ _ Hst'). lia.
        + rewrite (filled_rock_length _ _ _ _ Hst). lia.
        + rewrite (filled_rock_length _ _ _ _ Hst'). lia. }
    f_equal. f_equal; apply list_eq; intros j; apply Hcells.
  - destruct (nonpositive_run_raises cfg) as (e & He & Heq); [lia|].
    destruct (nonpositive_run_raises (with_temperature cfg c3' T_0'))
      as (e' & He' & Heq'); [simpl; lia|].
    simpl time_steps in Heq'. by rewrite He, He', Heq, Heq'.
Qed.
End Runs.

(** ** Dynamics in exact arithmetic *)

Lemma Qpower_nat_succ (q : Q) (j : nat) :
  (q ^ Z.of_nat (S j) == q * q ^ Z.of_nat j)%Q.
Proof.
  rewrite Nat2Z.inj_succ, <- Z.add_1_l.
  rewrite Qpower_plus' by lia. by rewrite Qpower_1_r.
Qed.

Section Dynamics.
Variable cfg : Config Q.

(** Every filled temperature cell is the linear image of the atmosphere
    cell beside it; cell 0 too, where the anomaly is zero. *)
Lemma filled_temperature (n k : nat) (st : State Q) :
  filled cfg n k st ->
  forall j : nat, (j <= k)%nat ->
    exists a t : Q,
      atmo st !! j = Some a /\ T st !! j = Some t /\
      (t == T_0 cfg + c3 cfg * (a - atmo_0 cfg))%Q.
Proof.
  intros Hst [|j] Hj.
  - exists (atmo_0 cfg), (T_0 cfg).
    rewrite (filled_atmo_0 _ _ _ _ Hst), (filled_T_0 _ _ _ _ Hst).
    repeat split. ring.
  - destruct (filled_step _ _ _ _ Hst j) as (r & a & _ & _ & _ & Ha' & HT');
      [lia|].
    eexists _, _. split; [exact Ha'|]. split; [exact HT'|]. reflexivity.
Qed.

(** The net flux [c1*rock - c2*atmo] of every filled cell. *)
Lemma filled_flux (n k : nat) (st : State Q) :
  filled cfg n k st ->
  forall j : nat, (j <= k)%nat ->
    exists r a : Q,
      rock st !! j = Some r /\ atmo st !! j = Some a /\
      (c1 cfg * r - c2 cfg * a ==
         (1 - c1 cfg - c2 cfg) ^ Z.of_nat j *
         (c1 cfg * rock_0 cfg - c2 cfg * atmo_0 cfg))%Q /\
      ((c1 cfg + c2 cfg) * r ==
         (c1 cfg + c2 cfg) * rock_0 cfg
         - (1 - (1 - c1 cfg - c2 cfg) ^ Z.of_nat j) *
           (c1 cfg * rock_0 cfg - c2 cfg * atmo_0 cfg))%Q /\
      ((c1 cfg + c2 cfg) * a ==
         (c1 cfg + c2 cfg) * atmo_0 cfg
         + (1 - (1 - c1 cfg - c2 cfg) ^ Z.of_nat j) *
           (c1 cfg * rock_0 cfg - c2 cfg * atmo_0 cfg))%Q.
Proof.
  intros Hst.
  apply (filled_cells_ind cfg
           (fun j r a =>
              (c1 cfg * r - c2 cfg * a ==
                 (1 - c1 cfg - c2 cfg) ^ Z.of_nat j *
                 (c1 cfg * rock_0 cfg - c2 cfg * atmo_0 cfg))%Q /\
              ((c1 cfg + c2 cfg) * r ==
                 (c1 cfg + c2 cfg) * rock_0 cfg
                 - (1 - (1 - c1 cfg - c2 cfg) ^ Z.of_nat j) *
                   (c1 cfg * rock_0 cfg - c2 cfg * atmo_0 cfg))%Q /\
              ((c1 cfg + c2 cfg) * a ==
                 (c1 cfg + c2 cfg) * atmo_0 cfg
                 + (1 - (1 - c1 cfg - c2 cfg) ^ Z.of_nat j) *
                   (c1 cfg * rock_0 cfg - c2 cfg * atmo_0 cfg))%Q)
           n k st Hst).
  - change ((1 - c1 cfg - c2 cfg) ^ Z.of_nat 0)%Q with 1%Q.
    repeat split; ring.
  - intros j r a _ (Hd & Hr & Ha).
    cbn [f_add f_sub f_mul Q_scalar].
    rewrite Qpower_nat_succ.
    set (q := (1 - c1 cfg - c2 cfg)%Q) in *.
    set (X := (q ^ Z.of_nat j)%Q) in *.
    set (d := (c1 cfg * rock_0 cfg - c2 cfg * atmo_0 cfg)%Q) in *.
    assert (c1 cfg * (r - c1 cfg * r + c2 cfg * a)
            - c2 cfg * (a + c1 cfg * r - c2 cfg * a) == q * X * d)%Q as Hd'.
    { transitivity (q * (c1 cfg * r - c2 cfg * a))%Q;
        [unfold q; ring | rewrite Hd; ring]. }
    split; [exact Hd'|]. split.
    + transitivity ((c1 cfg + c2 cfg) * r
                    - (c1 cfg + c2 cfg) * (c1 cfg * r - c2 cfg * a))%Q;
        [ring | rewrite Hd, Hr; unfold q; ring].
    + transitivity ((c1 cfg + c2 cfg) * a
                    + (c1 cfg + c2 cfg) * (c1 cfg * r - c2 cfg * a))%Q;
        [ring | rewrite Hd, Ha; unfold q; ring].
Qed.

(** The net flux decays geometrically: for every step [0 <= i <= N-1],
    [c1*rock[i] - c2*atmo[i] == (1 - c1 - c2)^i * (c1*rock_0 - c2*atmo_0)]. *)
Theorem net_flux_geometric (i : Z) :
  0 <= i <= time_steps cfg - 1 ->
  exists (st : State Q) (r a : Q),
    run cfg = Ok st /\
    getitem (rock st) i = Ok r /\
    getitem (atmo st) i = Ok a /\
    (c1 cfg * r - c2 cfg * a ==
       (1 - c1 cfg - c2 cfg) ^ i *
       (c1 cfg * rock_0 cfg - c2 cfg * atmo_0 cfg))%Q.
Proof.
  intros Hi.
  destruct (run_filled cfg) as (st & Hrun & Hst); [lia|].
  destruct (filled_flux _ _ _ Hst (Z.to_nat i)) as (r & a & Hr & Ha & Hd & _);
    [lia|].
  exists st, r, a.
  replace i with (Z.of_nat (Z.to_nat i)) by lia.
  by rewrite (getitem_lookup _ _ _ Hr), (getitem_lookup _ _ _ Ha).
Qed.

(** The closed form of the trajectory, cleared of the division by
    [c1 + c2]: for every step [0 <= i <= N-1],
    [(c1+c2)*rock[i] == (c1+c2)*rock_0 - (1 - (1-c1-c2)^i) * d] and
    [(c1+c2)*atmo[i] == (c1+c2)*atmo_0 + (1 - (1-c1-c2)^i) * d],
    with [d = c1*rock_0 - c2*atmo_0]. *)
Theorem trajectory_closed_form (i : Z) :
  0 <= i <= time_steps cfg - 1 ->
  exists (st : State Q) (r a : Q),
    run cfg = Ok st /\
    getitem (rock st) i = Ok r /\
    getitem (atmo st) i = Ok a /\
    ((c1 cfg + c2 cfg) * r ==
       (c1 cfg + c2 cfg) * rock_0 cfg
       - (1 - (1 - c1 cfg - c2 cfg) ^ i) *
         (c1 cfg * rock_0 cfg - c2 cfg * atmo_0 cfg))%Q /\
    ((c1 cfg + c2 cfg) * a ==
       (c1 cfg + c2 cfg) * atmo_0 cfg
       + (1 - (1 - c1 cfg - c2 cfg) ^ i) *
         (c1 cfg * rock_0 cfg - c2 cfg * atmo_0 cfg))%Q.
Proof.
  intros Hi.
  destruct (run_filled cfg) as (st & Hrun & Hst); [lia|].
  destruct (filled_flux _ _ _ Hst (Z.to_nat i))
    as (r & a & Hr & Ha & _ & Er & Ea); [lia|].
  exists st, r, a.
  replace i with (Z.of_nat (Z.to_nat i)) by lia.
  by rewrite (getitem_lookup _ _ _ Hr), (getitem_lookup _ _ _ Ha).
Qed.
End Dynamics.

(** ** Regimes of the exact trajectory *)

Section Regimes.
Variable cfg : Config Q.

(** Started at equilibrium, every filled cell repeats the initial
    reservoirs. *)
Lemma filled_balanced (n k : nat) (st : State Q) :
  (c1 cfg * rock_0 cfg == c2 cfg * atmo_0 cfg)%Q ->
  filled cfg n k st ->
  forall j : nat, (j <= k)%nat ->
    exists r a : Q,
      rock st !! j = Some r /\ atmo st !! j = Some a /\
      (r == rock_0 cfg)%Q /\ (a == atmo_0 cfg)%Q.
Proof.
  intros Hbal Hst.
  apply (filled_cells_ind cfg
           (fun _ r a => (r == rock_0 cfg)%Q /\ (a == atmo_0 cfg)%Q)
           n k st Hst).
  - split; reflexivity.
  - intros j r a _ [Er Ea]. cbn [f_add f_sub f_mul Q_scalar].
    rewrite Er, Ea. split; lra.
Qed.

(** With rates in [0, 1] and non-negative initial reservoirs, every
    filled cell is non-negative and the two sum to the initial total. *)
Lemma filled_nonnegative (n k : nat) (st : State Q) :
  (0 <= c1 cfg <= 1)%Q -> (0 <= c2 cfg <= 1)%Q ->
  (0 <= rock_0 cfg)%Q -> (0 <= atmo_0 cfg)%Q ->
  filled cfg n k st ->
  forall j : nat, (j <= k)%nat ->
    exists r a : Q,
      rock st !! j = Some r /\ atmo st !! j = Some a /\
      (0 <= r)%Q /\ (0 <= a)%Q /\ (r + a == rock_0 cfg + atmo_0 cfg)%Q.
Proof.
  intros Hc1 Hc2 Hr0 Ha0 Hst.
  apply (filled_cells_ind cfg
           (fun _ r a =>
              (0 <= r)%Q /\ (0 <= a)%Q /\
              (r + a == rock_0 cfg + atmo_0 cfg)%Q)
           n k st Hst).
  - split; [exact Hr0|]. split; [exact Ha0 | reflexivity].
  - intros j r a _ (Hr & Ha & Hsum). cbn [f_add f_sub f_mul Q_scalar].
    split; [nra|]. split; [nra | rewrite <- Hsum; ring].
Qed.

(** With [c1 + c2 <= 1] the net flux keeps the sign it starts with. *)
Lemma filled_flux_nonnegative (n k : nat) (st : State Q) :
  (c1 cfg + c2 cfg <= 1)%Q ->
  (c2 cfg * atmo_0 cfg <= c1 cfg * rock_0 cfg)%Q ->
  filled cfg n k st ->
  forall j : nat, (j <= k)%nat ->
    exists r a : Q,
      rock st !! j = Some r /\ atmo st !! j = Some a /\
      (c2 cfg * a <= c1 cfg * r)%Q.
Proof.
  intros Hq Hd Hst.
  apply (filled_cells_ind cfg (fun _ r a => (c2 cfg * a <= c1 cfg * r)%Q)
           n k st Hst).
  - exact Hd.
  - intros j r a _ Hflux. cbn [f_add f_sub f_mul Q_scalar].
    assert (0 <= (1 - c1 cfg - c2 cfg) * (c1 cfg * r - c2 cfg * a))%Q
      as Hprod by (apply Qmult_le_0_compat; lra).
    lra.
Qed.

(** A steady state is kept: if the script starts with
    [c1*rock_0 == c2*atmo_0] then for every step [0 <= i <= N-1],
    [rock[i] == rock_0], [atmo[i] == atmo_0] and [T[i] == T_0]. *)
Theorem equilibrium_start_constant (i : Z) :
  (c1 cfg * rock_0 cfg == c2 cfg * atmo_0 cfg)%Q ->
  0 <= i <= time_steps cfg - 1 ->
  exists (st : State Q) (r a t : Q),
    run cfg = Ok st /\
    getitem (rock st) i = Ok r /\
    getitem (atmo st) i = Ok a /\
    getitem (T st) i = Ok t /\
    (r == rock_0 cfg)%Q /\ (a == atmo_0 cfg)%Q /\ (t == T_0 cfg)%Q.
Proof.
  intros Hbal Hi.
  destruct (run_filled cfg) as (st & Hrun & Hst); [lia|].
  destruct (filled_balanced _ _ _ Hbal Hst (Z.to_nat i))
    as (r & a & Hr & Ha & Er & Ea); [lia|].
  destruct (filled_temperature cfg _ _ _ Hst (Z.to_nat i))
    as (a0 & t & Ha0 & Ht & Et); [lia|].
  rewrite Ha in Ha0. injection Ha0 as <-.
  exists st, r, a, t.
  replace i with (Z.of_nat (Z.to_nat i)) by lia.
  rewrite (getitem_lookup _ _ _ Hr), (getitem_lookup _ _ _ Ha),
    (getitem_lookup _ _ _ Ht).
  split; [exact Hrun|]. do 3 (split; [reflexivity|]).
  split; [exact Er|]. split; [exact Ea|].
  rewrite Et, Ea. ring.
Qed.

(** The temperature anomaly is [c3] times the carbon the atmosphere has
    gained, which is the carbon the rock has lost: for every step
    [0 <= i <= N-1], [T[i] == T_0 + c3*(atmo[i] - atmo_0)] and
    [T[i] == T_0 + c3*(rock_0 - rock[i])]. *)
Theorem temperature_tracks_carbon (i : Z) :
  0 <= i <= time_steps cfg - 1 ->
  exists (st : State Q) (r a t : Q),
    run cfg = Ok st /\
    getitem (rock st) i = Ok r /\
    getitem (atmo st) i = Ok a /\
    getitem (T st) i = Ok t /\
    (t == T_0 cfg + c3 cfg * (a - atmo_0 cfg))%Q /\
    (t == T_0 cfg + c3 cfg * (rock_0 cfg - r))%Q.
Proof.
  intros Hi.
  destruct (run_filled cfg) as (st & Hrun & Hst); [lia|].
  destruct (filled_total cfg _ _ _ Hst (Z.to_nat i))
    as (r & a & Hr & Ha & Hsum); [lia|].
  destruct (filled_temperature cfg _ _ _ Hst (Z.to_nat i))
    as (a0 & t & Ha0 & Ht & Et); [lia|].
  rewrite Ha in Ha0. injection Ha0 as <-.
  exists st, r, a, t.
  replace i with (Z.of_nat (Z.to_nat i)) by lia.
  rewrite (getitem_lookup _ _ _ Hr), (getitem_lookup _ _ _ Ha),
    (getitem_lookup _ _ _ Ht).
  split; [exact Hrun|]. do 3 (split; [reflexivity|]).
  split; [exact Et|].
  rewrite Et.
  setoid_replace (a - atmo_0 cfg)%Q with (rock_0 cfg - r)%Q using relation Qeq;
    [reflexivity | lra].
Qed.

(** No reservoir runs negative or above the total when the rates are
    fractions: with [0 <= c1 <= 1], [0 <= c2 <= 1], [0 <= rock_0] and
    [0 <= atmo_0], for every step [0 <= i <= N-1],
    [0 <= rock[i] <= rock_0 + atmo_0] and
    [0 <= atmo[i] <= rock_0 + atmo_0]. *)
Theorem reservoirs_stay_in_range (i : Z) :
  (0 <= c1 cfg <= 1)%Q -> (0 <= c2 cfg <= 1)%Q ->
  (0 <= rock_0 cfg)%Q -> (0 <= atmo_0 cfg)%Q ->
  0 <= i <= time_steps cfg - 1 ->
  exists (st : State Q) (r a : Q),
    run cfg = Ok st /\
    getitem (rock st) i = Ok r /\
    getitem (atmo st) i = Ok a /\
    (0 <= r <= rock_0 cfg + atmo_0 cfg)%Q /\
    (0 <= a <= rock_0 cfg + atmo_0 cfg)%Q.
Proof.
  intros Hc1 Hc2 Hr0 Ha0 Hi.
  destruct (run_filled cfg) as (st & Hrun & Hst); [lia|].
  destruct (filled_nonnegative _ _ _ Hc1 Hc2 Hr0 Ha0 Hst (Z.to_nat i))
    as (r & a & Hr & Ha & Pr & Pa & Hsum); [lia|].
  exists st, r, a.
  replace i with (Z.of_nat (Z.to_nat i)) by lia.
  rewrite (getitem_lookup _ _ _ Hr), (getitem_lookup _ _ _ Ha).
  split; [exact Hrun|]. do 2 (split; [reflexivity|]).
  split; split; lra.
Qed.

(** The approach to equilibrium is monotone: with [c1 + c2 <= 1], a
    start on the release side ([c2*atmo_0 <= c1*rock_0]) and [0 <= c3],
    at every step [1 <= i <= N-1] the rock does not grow, and the
    atmosphere and the temperature do not fall. *)
Theorem monotone_approach (i : Z) :
  (c1 cfg + c2 cfg <= 1)%Q ->
  (c2 cfg * atmo_0 cfg <= c1 cfg * rock_0 cfg)%Q ->
  (0 <= c3 cfg)%Q ->
  1 <= i <= time_steps cfg - 1 ->
  exists (st : State Q) (r a t r' a' t' : Q),
    run cfg = Ok st /\
    getitem (rock st) (i - 1) = Ok r /\
    getitem (atmo st) (i - 1) = Ok a /\
    getitem (T st) (i - 1) = Ok t /\
    getitem (rock st) i = Ok r' /\
    getitem (atmo st) i = Ok a' /\
    getitem (T st) i = Ok t' /\
    (r' <= r)%Q /\ (a <= a')%Q /\ (t <= t')%Q.
Proof.
  intros Hq Hd Hc3 Hi.
  destruct (run_filled cfg) as (st & Hrun & Hst); [lia|].
  destruct (filled_flux_nonnegative _ _ _ Hq Hd Hst (Z.to_nat (i - 1)))
    as (r & a & Hr & Ha & Hflux); [lia|].
  destruct (filled_temperature cfg _ _ _ Hst (Z.to_nat (i - 1)))
    as (a0 & t & Ha0 & Ht & Et); [lia|].
  rewrite Ha in Ha0. injection Ha0 as <-.
  destruct (filled_step _ _ _ _ Hst (Z.to_nat (i - 1)))
    as (r0 & a0 & Hr0 & Ha0 & Hr' & Ha' & HT'); [lia|].
  rewrite Hr in Hr0. rewrite Ha in Ha0.
  injection Hr0 as <-. injection Ha0 as <-.
  exists st, r, a, t. eexists _, _, _.
  replace (i - 1) with (Z.of_nat (Z.to_nat (i - 1))) by lia.
  replace i with (Z.of_nat (S (Z.to_nat (i - 1)))) at 4 5 6 by lia.
  rewrite (getitem_lookup _ _ _ Hr), (getitem_lookup _ _ _ Ha),
    (getitem_lookup _ _ _ Ht), (getitem_lookup _ _ _ Hr'),
    (getitem_lookup _ _ _ Ha'), (getitem_lookup _ _ _ HT').
  split; [exact Hrun|]. do 6 (split; [reflexivity|]).
  cbn [f_add f_sub f_mul Q_scalar].
  assert (0 <= c3 cfg * (c1 cfg * r - c2 cfg * a))%Q
    as Hprod by (apply Qmult_le_0_compat; lra).
  rewrite Et. split; [lra|]. split; lra.
Qed.

(** The reservoirs are in arbitrary units: multiplying [rock_0] and
    [atmo_0] by [k] multiplies every [rock[i]], [atmo[i]] and every
    temperature anomaly [T[i] - T_0] by [k]. *)
Theorem carbon_units_scale (k : Q) (i : Z) :
  0 <= i <= time_steps cfg - 1 ->
  exists (st st' : State Q) (r a t r' a' t' : Q),
    run cfg = Ok st /\
    run (scale_carbon k cfg) = Ok st' /\
    getitem (rock st) i = Ok r /\
    getitem (atmo st) i = Ok a /\
    getitem (T st) i = Ok t /\
    getitem (rock st') i = Ok r' /\
    getitem (atmo st') i = Ok a' /\
    getitem (T st') i = Ok t' /\
    (r' == k * r)%Q /\ (a' == k * a)%Q /\
    (t' - T_0 cfg == k * (t - T_0 cfg))%Q.
Proof.
  intros Hi.
  destruct (run_filled cfg) as (st & Hrun & Hst); [lia|].
  destruct (run_filled (scale_carbon k cfg)) as (st' & Hrun' & Hst');
    [simpl; lia|].
  simpl time_steps in Hst'.
  destruct (filled_cells_rel cfg (scale_carbon k cfg)
              (fun _ r a r' a' => (r' == k * r)%Q /\ (a' == k * a)%Q)
              _ _ _ _ st st' Hst Hst') with (j := Z.to_nat i)
    as (r & a & r' & a' & Hr & Ha & Hr' & Ha' & Er & Ea).
  - split; reflexivity.
  - intros j r a r' a' _ _ [Er Ea].
    cbn [f_add f_sub f_mul Q_scalar c1 c2 scale_carbon].
    rewrite Er, Ea. split; ring.
  - lia.
  - lia.
  - destruct (filled_temperature cfg _ _ _ Hst (Z.to_nat i))
      as (a0 & t & Ha0 & Ht & Et); [lia|].
    destruct (filled_temperature (scale_carbon k cfg) _ _ _ Hst' (Z.to_nat i))
      as (a0' & t' & Ha0' & Ht' & Et'); [lia|].
    rewrite Ha in Ha0. rewrite Ha' in Ha0'.
    injection Ha0 as <-. injection Ha0' as <-.
    cbn [T_0 c3 atmo_0 scale_carbon] in Et'.
    exists st, st', r, a, t, r', a', t'.
    replace i with (Z.of_nat (Z.to_nat i)) by lia.
    rewrite (getitem_lookup _ _ _ Hr), (getitem_lookup _ _ _ Ha),
      (getitem_lookup _ _ _ Ht), (getitem_lookup _ _ _ Hr'),
      (getitem_lookup _ _ _ Ha'), (getitem_lookup _ _ _ Ht').
    split; [exact Hrun|]. split; [exact Hrun'|].
    do 6 (split; [reflexivity|]).
    split; [exact Er|]. split; [exact Ea|].
    rewrite Et', Et, Ea. ring.
Qed.
End Regimes.

(** ** The further properties at concrete inputs *)

(** The time axis at step 2 of the three-step run. *)
Lemma time_axis_counts_steps_witness :
  0 <= 2 <= time_steps small_config - 1 /\
  exists st : State Q,
    run small_config = Ok st /\ getitem (time st) 2 = Ok 2.
Proof.
  split; [simpl; lia | apply (time_axis_counts_steps small_config 2); simpl; lia].
Defined.

(** The two-step run inside the three-step run. *)
Lemma shorter_run_is_prefix_witness :
  1 <= 2 <= 3 /\
  exists st st' : State Q,
    run (with_time_steps small_config 2) = Ok st /\
    run (with_time_steps small_config 3) = Ok st' /\
    time st = take (Z.to_nat 2) (time st') /\
    rock st = take (Z.to_nat 2) (rock st') /\
    atmo st = take (Z.to_nat 2) (atmo st') /\
    T st = take (Z.to_nat 2) (T st').
Proof.
  split; [lia | apply (shorter_run_is_prefix small_config 2 3); lia].
Defined.

(** The net flux at step 2 of the three-step run: [4 * (1/4)^2]. *)
Lemma net_flux_geometric_witness :
  0 <= 2 <= time_steps small_config - 1 /\
  exists (st : State Q) (r a : Q),
    run small_config = Ok st /\
    getitem (rock st) 2 = Ok r /\
    getitem (atmo st) 2 = Ok a /\
    (c1 small_config * r - c2 small_config * a ==
       (1 - c1 small_config - c2 small_config) ^ 2 *
       (c1 small_config * rock_0 small_config
        - c2 small_config * atmo_0 small_config))%Q.
Proof.
  split; [simpl; lia | apply (net_flux_geometric small_config 2); simpl; lia].
Defined.

(** The closed form at step 2 of the three-step run. *)
Lemma trajectory_closed_form_witness :
  0 <= 2 <= time_steps small_config - 1 /\
  exists (st : State Q) (r a : Q),
    run small_config = Ok st /\
    getitem (rock st) 2 = Ok r /\
    getitem (atmo st) 2 = Ok a /\
    ((c1 small_config + c2 small_config) * r ==
       (c1 small_config + c2 small_config) * rock_0 small_config
       - (1 - (1 - c1 small_config - c2 small_config) ^ 2) *
         (c1 small_config * rock_0 small_config
          - c2 small_config * atmo_0 small_config))%Q /\
    ((c1 small_config + c2 small_config) * a ==
       (c1 small_config + c2 small_config) * atmo_0 small_config
       + (1 - (1 - c1 small_config - c2 small_config) ^ 2) *
         (c1 small_config * rock_0 small_config
          - c2 small_config * atmo_0 small_config))%Q.
Proof.
  split; [simpl; lia | apply (trajectory_closed_form small_config 2); simpl; lia].
Defined.

(** Step 2 of the three-step run that starts at equilibrium. *)
Lemma equilibrium_start_constant_witness :
  ((c1 balanced_config * rock_0 balanced_config ==
    c2 balanced_config * atmo_0 balanced_config)%Q /\
   0 <= 2 <= time_steps balanced_config - 1) /\
  exists (st : State Q) (r a t : Q),
    run balanced_config = Ok st /\
    getitem (rock st) 2 = Ok r /\
    getitem (atmo st) 2 = Ok a /\
    getitem (T st) 2 = Ok t /\
    (r == rock_0 balanced_config)%Q /\ (a == atmo_0 balanced_config)%Q /\
    (t == T_0 balanced_config)%Q.
Proof.
  split.
  - split; [reflexivity | simpl; lia].
  - apply (equilibrium_start_constant balanced_config 2);
      [reflexivity | simpl; lia].
Defined.

(** The temperature at step 2 of the three-step run. *)
Lemma temperature_tracks_carbon_witness :
  0 <= 2 <= time_steps small_config - 1 /\
  exists (st : State Q) (r a t : Q),
    run small_config = Ok st /\
    getitem (rock st) 2 = Ok r /\
    getitem (atmo st) 2 = Ok a /\
    getitem (T st) 2 = Ok t /\
    (t == T_0 small_config + c3 small_config * (a - atmo_0 small_config))%Q /\
    (t == T_0 small_config + c3 small_config * (rock_0 small_config - r))%Q.
Proof.
  split;
    [simpl; lia | apply (temperature_tracks_carbon small_config 2); simpl; lia].
Defined.

(** The range of the reservoirs at step 2 of the three-step run. *)
Lemma reservoirs_stay_in_range_witness :
  ((0 <= c1 small_config <= 1)%Q /\ (0 <= c2 small_config <= 1)%Q /\
   (0 <= rock_0 small_config)%Q /\ (0 <= atmo_0 small_config)%Q /\
   0 <= 2 <= time_steps small_config - 1) /\
  exists (st : State Q) (r a : Q),
    run small_config = Ok st /\
    getitem (rock st) 2 = Ok r /\
    getitem (atmo st) 2 = Ok a /\
    (0 <= r <= rock_0 small_config + atmo_0 small_config)%Q /\
    (0 <= a <= rock_0 small_config + atmo_0 small_config)%Q.
Proof.
  assert (0 <= c1 small_config <= 1)%Q as Hc1
    by (split; unfold Qle; simpl; lia).
  assert (0 <= c2 small_config <= 1)%Q as Hc2
    by (split; unfold Qle; simpl; lia).
  assert (0 <= rock_0 small_config)%Q as Hr0 by (unfold Qle; simpl; lia).
  assert (0 <= atmo_0 small_config)%Q as Ha0 by (unfold Qle; simpl; lia).
  split.
  - split; [exact Hc1|]. split; [exact Hc2|]. split; [exact Hr0|].
    split; [exact Ha0 | simpl; lia].
  - apply (reservoirs_stay_in_range small_config 2 Hc1 Hc2 Hr0 Ha0).
    simpl; lia.
Defined.

(** Step 2 of the three-step run, which starts on the release side. *)
Lemma monotone_approach_witness :
  ((c1 small_config + c2 small_config <= 1)%Q /\
   (c2 small_config * atmo_0 small_config <=
    c1 small_config * rock_0 small_config)%Q /\
   (0 <= c3 small_config)%Q /\
   1 <= 2 <= time_steps small_config - 1) /\
  exists (st : State Q) (r a t r' a' t' : Q),
    run small_config = Ok st /\
    getitem (rock st) (2 - 1) = Ok r /\
    getitem (atmo st) (2 - 1) = Ok a /\
    getitem (T st) (2 - 1) = Ok t /\
    getitem (rock st) 2 = Ok r' /\
    getitem (atmo st) 2 = Ok a' /\
    getitem (T st) 2 = Ok t' /\
    (r' <= r)%Q /\ (a <= a')%Q /\ (t <= t')%Q.
Proof.
  assert (c1 small_config + c2 small_config <= 1)%Q as Hq
    by (unfold Qle; simpl; lia).
  assert (c2 small_config * atmo_0 small_config <=
          c1 small_config * rock_0 small_config)%Q as Hd
    by (unfold Qle; simpl; lia).
  assert (0 <= c3 small_config)%Q as Hc3 by (unfold Qle; simpl; lia).
  split.
  - split; [exact Hq|]. split; [exact Hd|]. split; [exact Hc3 | simpl; lia].
  - apply (monotone_approach small_config 2 Hq Hd Hc3). simpl; lia.
Defined.

(** The three-step run with the reservoirs in units three times
    smaller. *)
Lemma carbon_units_scale_witness :
  0 <= 2 <= time_steps small_config - 1 /\
  exists (st st' : State Q) (r a t r' a' t' : Q),
    run small_config = Ok st /\
    run (scale_carbon 3 small_config) = Ok st' /\
    getitem (rock st) 2 = Ok r /\
    getitem (atmo st) 2 = Ok a /\
    getitem (T st) 2 = Ok t /\
    getitem (rock st') 2 = Ok r' /\
    getitem (atmo st') 2 = Ok a' /\
    getitem (T st') 2 = Ok t' /\
    (r' == 3 * r)%Q /\ (a' == 3 * a)%Q /\
    (t' - T_0 small_config == 3 * (t - T_0 small_config))%Q.
Proof.
  split;
    [simpl; lia | apply (carbon_units_scale small_config 3 2); simpl; lia].
Defined.
